(** * The article layout of the documentation site

    A shallow embedding of [src/layouts/articleLayout.tsx]: the function
    component [ArticleLayout] and the page query exported next to it.

    The component receives the result of the page query as [props.data],
    which is a JSON document (or nothing at all), so JavaScript values
    are modelled as JSON values extended with [undefined].  Objects are
    finite maps from property names to values.  A render ends in one of
    three ways: it returns an element, it returns [null], or it throws a
    [TypeError], from the read of a property of [null] or [undefined] or
    from the conversion of an object to a string. *)

From stdpp Require Import base option strings gmap list pretty.

Local Set Warnings "-register-all".
Local Open Scope string_scope.

(** ** JavaScript values *)

(** The layout never computes with numbers: it only tests them for
    truthiness and interpolates them in a template literal.  The two
    operations are the interface of the number type. *)
Class JsNumber (number : Type) := {
  number_ToBoolean : number -> bool;
  number_ToString : number -> string
}.

(** The safe integers are one model: the integers of magnitude below
    [2^53], each of which is a JavaScript number.  [0] is the only falsy
    one, and each prints in plain decimal. *)
Record SafeInteger : Type := {
  int_value : Z;
  int_safe : Z.ltb (Z.abs int_value) (2 ^ 53) = true
}.

#[global] Instance SafeInteger_JsNumber : JsNumber SafeInteger := {|
  number_ToBoolean n := negb (Z.eqb (int_value n) 0);
  number_ToString n := pretty (int_value n)
|}.

(** Function objects are compared by identity. *)
Inductive FnRef : Type :=
  | FnId (id : nat).

(** The value of the router's location context that [useNavigate]
    reads. *)
Record LocationContext : Type := {
  navigate : FnRef
}.

(** [useNavigate] is imported from [@reach/router]: it returns the
    [navigate] function of the enclosing location context. *)
Definition useNavigate (ctx : LocationContext) : FnRef :=
  navigate ctx.

(** Abrupt completion: the only exception the layout can raise is a
    [TypeError], of reading a property of [null] or [undefined] or of
    converting to a string an object that has no usable [toString]. *)
Inductive JsError : Type :=
  | TypeError.

Inductive Completion (A : Type) : Type :=
  | Normal (a : A)
  | Throw (e : JsError).
Arguments Normal {A} a.
Arguments Throw {A} e.

Definition bind {A B : Type} (c : Completion A) (k : A -> Completion B)
  : Completion B :=
  match c with
  | Normal a => k a
  | Throw e => Throw e
  end.

(** Whether a completion is normal. *)
Definition is_Normal {A : Type} (c : Completion A) : bool :=
  match c with
  | Normal _ => true
  | Throw _ => false
  end.

Notation "'let*' x ':=' c 'in' k" := (bind c (fun x => k))
  (at level 10, x name, c at level 100, k at level 200).

(** ** The GraphQL page query (lines 54-83) *)

Inductive GqlValue : Type :=
  | GqlVar (name : string)
  | GqlObject (fields : list (string * GqlValue)).

Inductive Selection : Type :=
  | Field (name : string) (args : list (string * GqlValue))
      (sub : list Selection)
  | InlineFragment (on : string) (sub : list Selection).

Record Operation : Type := {
  variables : list (string * string);
  selectionSet : list Selection
}.

Definition leaf (name : string) : Selection := Field name [] [].

Definition query : Operation := {|
  variables := [("id", "String!")];
  selectionSet :=
    [ Field "site" []
        [ Field "siteMetadata" [] [ leaf "docsLocation" ] ];
      Field "mdx"
        [ ("fields", GqlObject [ ("id", GqlObject [ ("eq", GqlVar "id") ]) ]) ]
        [ Field "fields" [] [ leaf "slug"; leaf "modSlug" ];
          leaf "body";
          Field "parent" [] [ InlineFragment "File" [ leaf "relativePath" ] ];
          leaf "tableOfContents";
          Field "frontmatter" []
            [ leaf "title"; leaf "metaTitle"; leaf "metaDescription";
              leaf "langSwitcher"; leaf "dbSwitcher"; leaf "toc" ] ] ]
|}.

(** [selects s p]: the selection [s] requests the leaf field reached
    from its parent by the property path [p]; a leaf is a field without a
    selection set of its own.  An inline fragment contributes the fields
    of its selection set to the enclosing object. *)
Fixpoint selects (s : Selection) (p : list string) {struct s} : bool :=
  match s with
  | Field name _ sub =>
      match p with
      | [] => false
      | k :: rest =>
          String.eqb k name &&
          match rest with
          | [] => match sub with [] => true | _ :: _ => false end
          | _ :: _ => existsb (fun s' => selects s' rest) sub
          end
      end
  | InlineFragment _ sub => existsb (fun s' => selects s' p) sub
  end.

Definition requests (q : Operation) (p : list string) : bool :=
  existsb (fun s => selects s p) (selectionSet q).

(** The arguments of a root field of the operation. *)
Definition root_args (q : Operation) (name : string)
  : option (list (string * GqlValue)) :=
  head (omap (fun s =>
          match s with
          | Field n args _ => if String.eqb n name then Some args else None
          | InlineFragment _ _ => None
          end) (selectionSet q)).

(** The property paths of [data] that the layout reads: the leaves of
    the destructuring pattern (lines 17-28) and [parent.relativePath]
    (line 47). *)
Definition destructured_paths : list (list string) :=
  [ ["mdx"; "fields"; "slug"];
    ["mdx"; "fields"; "modSlug"];
    ["mdx"; "frontmatter"; "title"];
    ["mdx"; "frontmatter"; "metaTitle"];
    ["mdx"; "frontmatter"; "metaDescription"];
    ["mdx"; "frontmatter"; "langSwitcher"];
    ["mdx"; "frontmatter"; "dbSwitcher"];
    ["mdx"; "frontmatter"; "toc"];
    ["mdx"; "body"];
    ["mdx"; "parent"; "relativePath"];
    ["mdx"; "tableOfContents"];
    ["site"; "siteMetadata"; "docsLocation"] ].

Section Layout.
Context {number : Type} `{JsNumber number}.

Inductive JsVal : Type :=
  | JUndefined
  | JNull
  | JBool (b : bool)
  | JNum (n : number)
  | JStr (s : string)
  | JArr (items : list JsVal)
  | JObj (props : gmap string JsVal).

(** [ToBoolean]: [undefined], [null], [false], the falsy numbers and the
    empty string are falsy; every array and object is truthy. *)
Definition ToBoolean (v : JsVal) : bool :=
  match v with
  | JUndefined | JNull => false
  | JBool b => b
  | JNum n => number_ToBoolean n
  | JStr s => negb (String.eqb s "")
  | JArr _ | JObj _ => true
  end.

(** [v == null]: loose equality with [null] holds of [null] and
    [undefined] only. *)
Definition loose_eq_null (v : JsVal) : bool :=
  match v with
  | JUndefined | JNull => true
  | _ => false
  end.

(** [a || b] *)
Definition js_or (a b : JsVal) : JsVal :=
  if ToBoolean a then a else b.

(** [ToString], as a template literal applies it to a substitution.
    An array is joined with commas, its [null] and [undefined] elements
    printing as nothing and the others converted in turn.  An object is
    converted through its [toString] method: a plain object inherits the
    one that prints [[object Object]], but an object with a property of
    its own called [toString] hides it behind a value that cannot be
    called (a query result holds no function), the inherited [valueOf]
    answers the object itself, and the conversion ends in a
    [TypeError]. *)
Fixpoint ToString (v : JsVal) : Completion string :=
  match v with
  | JUndefined => Normal "undefined"
  | JNull => Normal "null"
  | JBool true => Normal "true"
  | JBool false => Normal "false"
  | JNum n => Normal (number_ToString n)
  | JStr s => Normal s
  | JArr items =>
      (fix join (l : list JsVal) : Completion string :=
         match l with
         | [] => Normal ""
         | x :: rest =>
             let* sx := if loose_eq_null x then Normal "" else ToString x in
             match rest with
             | [] => Normal sx
             | _ :: _ => let* sr := join rest in Normal (sx +:+ "," +:+ sr)
             end
         end) items
  | JObj props =>
      match props !! "toString" with
      | Some _ => Throw TypeError
      | None => Normal "[object Object]"
      end
  end.

(** The value of property [k] of a value that is neither [null] nor
    [undefined].  Only objects carry the properties the layout asks
    for: none of its property names is a built-in of strings, arrays,
    numbers or booleans, so these answer [undefined]. *)
Definition prop_of (v : JsVal) (k : string) : JsVal :=
  match v with
  | JObj props => default JUndefined (props !! k)
  | _ => JUndefined
  end.

(** Reading a property, in a member expression or in an object
    pattern: a [TypeError] on [null] and [undefined]. *)
Definition GetV (v : JsVal) (k : string) : Completion JsVal :=
  if loose_eq_null v then Throw TypeError else Normal (prop_of v k).

(** Following a property path from a value. *)
Fixpoint path (v : JsVal) (ks : list string) : Completion JsVal :=
  match ks with
  | [] => Normal v
  | k :: ks' => let* v' := GetV v k in path v' ks'
  end.

(** The same path where every step is known to succeed. *)
Definition data_at (v : JsVal) (ks : list string) : JsVal :=
  foldl prop_of v ks.

(** ** React elements *)

Inductive Element : Type :=
  | Fragment (children : list Element)
  | section (className : string) (children : list Element)
  | SEO (title description : JsVal)
  | TopSection (location title slug langSwitcher dbSwitcher : JsVal)
      (navigate : FnRef) (toc : JsVal)
  | MDXRenderer (children : JsVal)
  | PageBottom (editDocsPath : string) (pageUrl : JsVal).

(** The elements of a tree, in document order. *)
Fixpoint nodes (e : Element) : list Element :=
  e ::
  match e with
  | Fragment cs | section _ cs => flat_map nodes cs
  | _ => []
  end.

(** ** The component *)

(** The variables bound by the destructuring pattern of lines 17-28. *)
Record Bindings : Type := {
  slug : JsVal;
  modSlug : JsVal;
  title : JsVal;
  metaTitle : JsVal;
  metaDescription : JsVal;
  langSwitcher : JsVal;
  dbSwitcher : JsVal;
  toc : JsVal;
  body : JsVal;
  parent : JsVal;
  tableOfContents : JsVal;
  docsLocation : JsVal
}.

(** Lines 17-28.  [parent] is bound, not taken apart. *)
Definition destructure (data : JsVal) : Completion Bindings :=
  let* mdx := GetV data "mdx" in
  let* fields := GetV mdx "fields" in
  let* slug := GetV fields "slug" in
  let* modSlug := GetV fields "modSlug" in
  let* frontmatter := GetV mdx "frontmatter" in
  let* title := GetV frontmatter "title" in
  let* metaTitle := GetV frontmatter "metaTitle" in
  let* metaDescription := GetV frontmatter "metaDescription" in
  let* langSwitcher := GetV frontmatter "langSwitcher" in
  let* dbSwitcher := GetV frontmatter "dbSwitcher" in
  let* toc := GetV frontmatter "toc" in
  let* body := GetV mdx "body" in
  let* parent := GetV mdx "parent" in
  let* tableOfContents := GetV mdx "tableOfContents" in
  let* site := GetV data "site" in
  let* siteMetadata := GetV site "siteMetadata" in
  let* docsLocation := GetV siteMetadata "docsLocation" in
  Normal {| slug := slug; modSlug := modSlug; title := title;
            metaTitle := metaTitle; metaDescription := metaDescription;
            langSwitcher := langSwitcher; dbSwitcher := dbSwitcher;
            toc := toc; body := body; parent := parent;
            tableOfContents := tableOfContents;
            docsLocation := docsLocation |}.

(** Line 43: [toc || toc == null ? tableOfContents : []].  The
    conditional operator binds weaker than [||], which binds weaker
    than [==]. *)
Definition toc_prop (toc tableOfContents : JsVal) : JsVal :=
  if ToBoolean toc || loose_eq_null toc then tableOfContents else JArr [].

(** Lines 32-49: the JSX, its attributes evaluated in document order.
    The template literal of line 47 converts [docsLocation], reads
    [parent.relativePath] and converts it, in this order. *)
Definition render (b : Bindings) (props : gmap string JsVal)
    (navigate : FnRef) : Completion Element :=
  let seo :=
    SEO (js_or (metaTitle b) (title b)) (js_or (metaDescription b) (title b)) in
  let top :=
    section "top-section"
      [ TopSection (default JUndefined (props !! "location"))
          (title b) (modSlug b) (langSwitcher b) (dbSwitcher b)
          navigate (toc_prop (toc b) (tableOfContents b)) ] in
  let mdx := MDXRenderer (body b) in
  let* docsLocation_s := ToString (docsLocation b) in
  let* relativePath := GetV (parent b) "relativePath" in
  let* relativePath_s := ToString relativePath in
  let bottom :=
    PageBottom (docsLocation_s +:+ "/" +:+ relativePath_s) (slug b) in
  Normal (Fragment [ seo; top; mdx; bottom ]).

(** The [data] property of the props, [undefined] when there is none. *)
Definition props_data (props0 : gmap string JsVal) : JsVal :=
  default JUndefined (props0 !! "data").

(** Lines 13-50.  The argument pattern takes [data] out of the props
    and leaves the other properties in [props]; [None] is the [null]
    the component returns when it renders nothing.  The component calls
    no state hook: its one hook, [useNavigate], reads the router context,
    so a render is a function of the props and of that context. *)
Definition ArticleLayout (props0 : gmap string JsVal) (ctx : LocationContext)
  : Completion (option Element) :=
  let data := props_data props0 in
  let props := delete "data" props0 in
  if negb (ToBoolean data) then Normal None
  else
    let* b := destructure data in
    let navigate := useNavigate ctx in
    let* el := render b props navigate in
    Normal (Some el).

(** ** What a rendered tree passes to the child components *)

Definition tocs_passed (el : Element) : list JsVal :=
  omap (fun e => match e with
                 | TopSection _ _ _ _ _ _ t => Some t
                 | _ => None
                 end) (nodes el).

Definition seo_passed (el : Element) : list (JsVal * JsVal) :=
  omap (fun e => match e with
                 | SEO t d => Some (t, d)
                 | _ => None
                 end) (nodes el).

Definition bodies_passed (el : Element) : list JsVal :=
  omap (fun e => match e with
                 | MDXRenderer c => Some c
                 | _ => None
                 end) (nodes el).

Definition page_bottoms_passed (el : Element) : list (string * JsVal) :=
  omap (fun e => match e with
                 | PageBottom p u => Some (p, u)
                 | _ => None
                 end) (nodes el).

(** ** Shapes of the query result *)

(** A path leads to a value other than [null] and [undefined]. *)
Definition present (data : JsVal) (ks : list string) : bool :=
  match path data ks with
  | Normal v => negb (loose_eq_null v)
  | Throw _ => false
  end.

(** The objects that the pattern of lines 17-28 takes apart. *)
Definition destructurable (data : JsVal) : bool :=
  present data ["mdx"] && present data ["mdx"; "fields"] &&
  present data ["mdx"; "frontmatter"] &&
  present data ["site"] && present data ["site"; "siteMetadata"].

(** The objects that the whole render reads properties of. *)
Definition data_complete (data : JsVal) : bool :=
  destructurable data && present data ["mdx"; "parent"].

(** A value that the template literal of line 47 can convert. *)
Definition convertible (v : JsVal) : bool :=
  is_Normal (ToString v).

(** The query results on which the layout returns an element: the
    objects are there and the two leaves of the edit path convert. *)
Definition renderable (data : JsVal) : bool :=
  data_complete data &&
  convertible (data_at data ["site"; "siteMetadata"; "docsLocation"]) &&
  convertible (data_at data ["mdx"; "parent"; "relativePath"]).

(** The edit path of line 47 on a complete query result. *)
Definition edit_path (data : JsVal) : Completion string :=
  let* docsLocation_s :=
    ToString (data_at data ["site"; "siteMetadata"; "docsLocation"]) in
  let* relativePath_s :=
    ToString (data_at data ["mdx"; "parent"; "relativePath"]) in
  Normal (docsLocation_s +:+ "/" +:+ relativePath_s).

(** The tree that lines 32-49 build from a complete query result whose
    edit path is [editDocsPath]. *)
Definition article_tree (data location : JsVal) (nav : FnRef)
    (editDocsPath : string) : Element :=
  Fragment
    [ SEO (js_or (data_at data ["mdx"; "frontmatter"; "metaTitle"])
                 (data_at data ["mdx"; "frontmatter"; "title"]))
          (js_or (data_at data ["mdx"; "frontmatter"; "metaDescription"])
                 (data_at data ["mdx"; "frontmatter"; "title"]));
      section "top-section"
        [ TopSection location
            (data_at data ["mdx"; "frontmatter"; "title"])
            (data_at data ["mdx"; "fields"; "modSlug"])
            (data_at data ["mdx"; "frontmatter"; "langSwitcher"])
            (data_at data ["mdx"; "frontmatter"; "dbSwitcher"])
            nav
            (toc_prop (data_at data ["mdx"; "frontmatter"; "toc"])
                      (data_at data ["mdx"; "tableOfContents"])) ];
      MDXRenderer (data_at data ["mdx"; "body"]);
      PageBottom editDocsPath (data_at data ["mdx"; "fields"; "slug"]) ].

(** The props that the [TopSection] elements of a tree carry besides
    [toc]: location, title, slug, langSwitcher, dbSwitcher, navigate. *)
Definition top_sections_passed (el : Element)
  : list (JsVal * JsVal * JsVal * JsVal * JsVal * FnRef) :=
  omap (fun e => match e with
                 | TopSection l t s ls ds n _ => Some (l, t, s, ls, ds, n)
                 | _ => None
                 end) (nodes el).

(** A query result with the value at a property path replaced; whatever
    is not an object on the way becomes one. *)
Fixpoint set_path (v : JsVal) (ks : list string) (x : JsVal) : JsVal :=
  match ks with
  | [] => x
  | k :: ks' =>
      JObj (<[ k := set_path (prop_of v k) ks' x ]>
              match v with
              | JObj m => m
              | _ => empty
              end)
  end.

(** The result of the query for a page without front matter and without
    headings: every object is there, every leaf but the (empty) table of
    contents is missing. *)
Definition blank_page : JsVal :=
  JObj {[
    "site" := JObj {[ "siteMetadata" := JObj empty ]};
    "mdx" := JObj {[ "fields" := JObj empty;
                     "frontmatter" := JObj empty;
                     "parent" := JObj empty;
                     "tableOfContents" := JObj empty ]} ]}.

End Layout.

Arguments JsVal number : clear implicits.
Arguments Element number : clear implicits.
Arguments Bindings number : clear implicits.

(** ** Sample query results *)

(** The result of the page query for the guide on SQL views, whose front
    matter sets [title], [metaTitle], [metaDescription] and [dbSwitcher]
    and nothing else: the fields it leaves out come back as [null]. *)
Definition sql_views_page : JsVal SafeInteger :=
  JObj {[
    "site" := JObj {[
      "siteMetadata" := JObj {[
        "docsLocation" := JStr "https://example.org/docs/content" ]} ]};
    "mdx" := JObj {[
      "fields" := JObj {[ "slug" := JStr "/guides/sql-views";
                          "modSlug" := JStr "/guides/sql-views-postgres" ]};
      "body" := JStr "function MDXContent() {}";
      "parent" := JObj {[ "relativePath" := JStr "guides/sql-views.mdx" ]};
      "tableOfContents" := JObj {[
        "items" := JArr [ JObj {[ "url" := JStr "#overview";
                                  "title" := JStr "Overview" ]} ] ]};
      "frontmatter" := JObj {[
        "title" := JStr "SQL views";
        "metaTitle" := JStr "Create SQL views with Prisma and PostgreSQL";
        "metaDescription" := JStr "Learn how to create SQL views";
        "langSwitcher" := JNull;
        "dbSwitcher" := JArr [ JStr "postgres" ];
        "toc" := JNull ]} ]} ]}.

Definition sql_views_props : gmap string (JsVal SafeInteger) :=
  {[ "data" := sql_views_page;
     "location" := JObj {[ "pathname" := JStr "/guides/sql-views" ]};
     "uri" := JStr "/guides/sql-views" ]}.

(** A page whose front matter asks for a table of contents while the
    query returns an empty array for it. *)
Definition empty_toc_page : JsVal SafeInteger :=
  JObj {[
    "site" := JObj {[
      "siteMetadata" := JObj {[ "docsLocation" := JStr "docs" ]} ]};
    "mdx" := JObj {[
      "fields" := JObj {[ "slug" := JStr "/a"; "modSlug" := JStr "/a" ]};
      "body" := JStr "";
      "parent" := JObj {[ "relativePath" := JStr "a.mdx" ]};
      "tableOfContents" := JArr [];
      "frontmatter" := JObj {[ "title" := JStr "A";
                               "toc" := JBool true ]} ]} ]}.

(** The result of a query whose [$id] matches no MDX node. *)
Definition no_match_page : JsVal SafeInteger :=
  JObj {[
    "site" := JObj {[
      "siteMetadata" := JObj {[ "docsLocation" := JStr "docs" ]} ]};
    "mdx" := JNull ]}.

(** A page whose MDX node has no parent file. *)
Definition null_parent_page : JsVal SafeInteger :=
  JObj {[
    "site" := JObj {[
      "siteMetadata" := JObj {[ "docsLocation" := JStr "docs" ]} ]};
    "mdx" := JObj {[
      "fields" := JObj {[ "slug" := JStr "/a"; "modSlug" := JStr "/a" ]};
      "body" := JStr "";
      "parent" := JNull;
      "tableOfContents" := JObj empty;
      "frontmatter" := JObj {[ "title" := JStr "A" ]} ]} ]}.

(** The page of [sql_views_page] with fields the query does not ask
    for. *)
Definition sql_views_page_extra : JsVal SafeInteger :=
  JObj {[
    "allMdx" := JArr [];
    "site" := JObj {[
      "siteMetadata" := JObj {[
        "docsLocation" := JStr "https://example.org/docs/content";
        "title" := JStr "Docs" ]} ]};
    "mdx" := JObj {[
      "id" := JStr "b2c1";
      "fields" := JObj {[ "slug" := JStr "/guides/sql-views";
                          "modSlug" := JStr "/guides/sql-views-postgres" ]};
      "body" := JStr "function MDXContent() {}";
      "parent" := JObj {[ "relativePath" := JStr "guides/sql-views.mdx";
                          "size" := JNum {| int_value := 9000;
                                            int_safe := eq_refl |} ]};
      "tableOfContents" := JObj {[
        "items" := JArr [ JObj {[ "url" := JStr "#overview";
                                  "title" := JStr "Overview" ]} ] ]};
      "frontmatter" := JObj {[
        "title" := JStr "SQL views";
        "metaTitle" := JStr "Create SQL views with Prisma and PostgreSQL";
        "metaDescription" := JStr "Learn how to create SQL views";
        "langSwitcher" := JNull;
        "dbSwitcher" := JArr [ JStr "postgres" ];
        "toc" := JNull ]} ]} ]}.

Definition sql_views_props_extra : gmap string (JsVal SafeInteger) :=
  {[ "data" := sql_views_page_extra;
     "location" := JObj {[ "pathname" := JStr "/guides/sql-views" ]};
     "uri" := JStr "/guides/sql-views/";
     "pageContext" := JObj {[ "id" := JStr "b2c1" ]} ]}.

(** The props of [sql_views_props] with other router props. *)
Definition sql_views_props_routed : gmap string (JsVal SafeInteger) :=
  {[ "data" := sql_views_page;
     "location" := JObj {[ "pathname" := JStr "/guides/sql-views" ]};
     "uri" := JStr "/elsewhere";
     "path" := JStr "/*" ]}.

(** The props of [sql_views_props] at another location. *)
Definition sql_views_props_moved : gmap string (JsVal SafeInteger) :=
  {[ "data" := sql_views_page;
     "location" := JObj {[ "pathname" := JStr "/guides/sql-views/" ]} ]}.

(** A page that turns the table of contents off and has an empty
    [metaTitle] and no [metaDescription]. *)
Definition plain_page : JsVal SafeInteger :=
  JObj {[
    "site" := JObj {[
      "siteMetadata" := JObj {[ "docsLocation" := JStr "docs" ]} ]};
    "mdx" := JObj {[
      "fields" := JObj {[ "slug" := JStr "/log"; "modSlug" := JStr "/log" ]};
      "body" := JStr "";
      "parent" := JObj {[ "relativePath" := JStr "log.mdx" ]};
      "tableOfContents" := JObj {[
        "items" := JArr [ JObj {[ "url" := JStr "#v1";
                                  "title" := JStr "v1" ]} ] ]};
      "frontmatter" := JObj {[
        "title" := JStr "Changelog";
        "metaTitle" := JStr "";
        "metaDescription" := JNull;
        "langSwitcher" := JNull;
        "dbSwitcher" := JNull;
        "toc" := JBool false ]} ]} ]}.

(** A complete page whose [relativePath] is an object with a property
    called [toString]. *)
Definition unprintable_page : JsVal SafeInteger :=
  JObj {[
    "site" := JObj {[
      "siteMetadata" := JObj {[ "docsLocation" := JStr "docs" ]} ]};
    "mdx" := JObj {[
      "fields" := JObj {[ "slug" := JStr "/a"; "modSlug" := JStr "/a" ]};
      "body" := JStr "";
      "parent" := JObj {[
        "relativePath" := JObj {[ "toString" := JStr "a.mdx" ]} ]};
      "tableOfContents" := JObj empty;
      "frontmatter" := JObj {[ "title" := JStr "A" ]} ]} ]}.

(** A page whose MDX node has a parent that is not a file, so that the
    inline fragment on [File] contributes nothing, and whose site
    metadata has no [docsLocation], for which the query answers
    [null]. *)
Definition orphan_page : JsVal SafeInteger :=
  JObj {[
    "site" := JObj {[ "siteMetadata" := JObj {[ "docsLocation" := JNull ]} ]};
    "mdx" := JObj {[
      "fields" := JObj {[ "slug" := JStr "/a"; "modSlug" := JStr "/a-node" ]};
      "body" := JStr "";
      "parent" := JObj empty;
      "tableOfContents" := JObj empty;
      "frontmatter" := JObj {[ "title" := JStr "A";
                               "metaTitle" := JStr "" ]} ]} ]}.

Definition router_a : LocationContext := {| navigate := FnId 0 |}.
Definition router_b : LocationContext := {| navigate := FnId 1 |}.

(** * Properties *)

(** Case analysis on every string comparison in a hypothesis. *)
Ltac split_eqb H :=
  repeat match type of H with
  | context [String.eqb ?a ?b] =>
      destruct (String.eqb_spec a b); [subst|]; simpl in H
  end.

Section Properties.
Context {number : Type} `{JsNumber number}.

Implicit Types (data v : JsVal number) (props : gmap string (JsVal number)).

Lemma GetV_Normal v k :
  loose_eq_null v = false -> GetV v k = Normal (prop_of v k).
Proof. unfold GetV. intros ->. reflexivity. Qed.

Lemma GetV_Throw v k :
  loose_eq_null v = true -> GetV v k = Throw TypeError.
Proof. unfold GetV. intros ->. reflexivity. Qed.

Lemma prop_of_nullish v k :
  loose_eq_null v = true -> prop_of v k = JUndefined.
Proof. destruct v; simpl; congruence. Qed.

(** [destructure] succeeds exactly on the destructurable results, and
    then binds the values at the leaves of the pattern. *)
Lemma destructure_spec data :
  destructure data =
  if destructurable data then
    Normal {| slug := data_at data ["mdx"; "fields"; "slug"];
              modSlug := data_at data ["mdx"; "fields"; "modSlug"];
              title := data_at data ["mdx"; "frontmatter"; "title"];
              metaTitle := data_at data ["mdx"; "frontmatter"; "metaTitle"];
              metaDescription :=
                data_at data ["mdx"; "frontmatter"; "metaDescription"];
              langSwitcher :=
                data_at data ["mdx"; "frontmatter"; "langSwitcher"];
              dbSwitcher := data_at data ["mdx"; "frontmatter"; "dbSwitcher"];
              toc := data_at data ["mdx"; "frontmatter"; "toc"];
              body := data_at data ["mdx"; "body"];
              parent := data_at data ["mdx"; "parent"];
              tableOfContents := data_at data ["mdx"; "tableOfContents"];
              docsLocation :=
                data_at data ["site"; "siteMetadata"; "docsLocation"] |}
  else Throw TypeError.
Proof.
  unfold destructure, destructurable, present, data_at; simpl.
  unfold GetV.
  destruct (loose_eq_null data); simpl; [reflexivity|].
  destruct (loose_eq_null (prop_of data "mdx")) eqn:Emdx; simpl;
    [reflexivity|].
  destruct (loose_eq_null (prop_of (prop_of data "mdx") "fields"));
    simpl; [reflexivity|].
  destruct (loose_eq_null (prop_of (prop_of data "mdx") "frontmatter"));
    simpl; [reflexivity|].
  destruct (loose_eq_null (prop_of data "site")); simpl; [reflexivity|].
  destruct (loose_eq_null (prop_of (prop_of data "site") "siteMetadata"));
    simpl; reflexivity.
Qed.

Lemma destructurable_mdx data :
  destructurable data = true ->
  loose_eq_null data = false /\ loose_eq_null (prop_of data "mdx") = false.
Proof.
  unfold destructurable, present; simpl. unfold GetV.
  destruct (loose_eq_null data); simpl; [discriminate|].
  destruct (loose_eq_null (prop_of data "mdx")); simpl;
    [discriminate|auto].
Qed.

Lemma Throw_TypeError {A : Type} (e : JsError) :
  @Throw A e = Throw TypeError.
Proof. destruct e. reflexivity. Qed.

(** The outcomes of a render. *)
Lemma ArticleLayout_spec props ctx :
  ArticleLayout props ctx =
  if negb (ToBoolean (props_data props)) then Normal None
  else if data_complete (props_data props) then
    let* e := edit_path (props_data props) in
    Normal (Some (article_tree (props_data props)
                    (default JUndefined (props !! "location"))
                    (navigate ctx) e))
  else Throw TypeError.
Proof.
  unfold ArticleLayout.
  destruct (negb (ToBoolean (props_data props))); [reflexivity|].
  rewrite destructure_spec. unfold data_complete.
  destruct (destructurable (props_data props)) eqn:E; simpl;
    [|reflexivity].
  apply destructurable_mdx in E as [E0 E1].
  unfold render, edit_path, present, useNavigate; simpl.
  unfold GetV. rewrite E0; simpl. rewrite E1; simpl.
  rewrite lookup_delete_ne by discriminate.
  unfold data_at; simpl.
  destruct (ToString (prop_of (prop_of (prop_of (props_data props) "site")
                                 "siteMetadata") "docsLocation"))
    as [d|e]; simpl.
  - destruct (loose_eq_null (prop_of (prop_of (props_data props) "mdx")
                               "parent")); simpl; [reflexivity|].
    destruct (ToString (prop_of (prop_of (prop_of (props_data props) "mdx")
                                   "parent") "relativePath"));
      reflexivity.
  - destruct (loose_eq_null (prop_of (prop_of (props_data props) "mdx")
                               "parent")); simpl;
      [apply Throw_TypeError|reflexivity].
Qed.

Lemma data_complete_truthy data :
  data_complete data = true -> ToBoolean data = true.
Proof.
  unfold data_complete. intros Hc.
  apply andb_prop in Hc as [Hd _].
  apply destructurable_mdx in Hd as [_ Hm].
  destruct data; simpl in *; congruence.
Qed.

Lemma ArticleLayout_complete props ctx e :
  data_complete (props_data props) = true ->
  edit_path (props_data props) = Normal e ->
  ArticleLayout props ctx =
  Normal (Some (article_tree (props_data props)
                  (default JUndefined (props !! "location"))
                  (navigate ctx) e)).
Proof.
  intros Hc He. rewrite ArticleLayout_spec.
  rewrite (data_complete_truthy _ Hc), Hc, He. reflexivity.
Qed.

(** The edit path is built exactly when its two leaves convert. *)
Lemma edit_path_convertible data :
  is_Normal (edit_path data) =
  convertible (data_at data ["site"; "siteMetadata"; "docsLocation"]) &&
  convertible (data_at data ["mdx"; "parent"; "relativePath"]).
Proof.
  unfold edit_path, convertible.
  destruct (ToString (data_at data ["site"; "siteMetadata"; "docsLocation"]));
    cbn [bind is_Normal andb]; [|reflexivity].
  destruct (ToString (data_at data ["mdx"; "parent"; "relativePath"]));
    reflexivity.
Qed.

Lemma renderable_spec data :
  renderable data = data_complete data && is_Normal (edit_path data).
Proof.
  unfold renderable. rewrite edit_path_convertible, andb_assoc. reflexivity.
Qed.

Lemma renderable_edit_path data :
  renderable data = true ->
  data_complete data = true /\ exists e, edit_path data = Normal e.
Proof.
  rewrite renderable_spec. intros Hr.
  apply andb_prop in Hr as [Hc He]. split; [exact Hc|].
  destruct (edit_path data) as [e|]; [eauto|discriminate].
Qed.

(** A render returns an element exactly on the renderable results. *)
Lemma ArticleLayout_element_iff props ctx :
  (exists el, ArticleLayout props ctx = Normal (Some el)) <->
  renderable (props_data props) = true.
Proof.
  rewrite ArticleLayout_spec, renderable_spec. split.
  - intros [el Hel].
    destruct (ToBoolean (props_data props)); simpl in Hel; [|discriminate].
    destruct (data_complete (props_data props)); [|discriminate].
    destruct (edit_path (props_data props)); [reflexivity|discriminate].
  - intros Hr. apply andb_prop in Hr as [Hc He].
    rewrite (data_complete_truthy _ Hc), Hc; simpl.
    destruct (edit_path (props_data props)); [eauto|discriminate].
Qed.

(** *** Reading through paths *)

Lemma path2 data a b :
  path data [a; b] =
  if present data [a] then Normal (data_at data [a; b]) else Throw TypeError.
Proof.
  unfold present, data_at; simpl. unfold GetV.
  destruct (loose_eq_null data); simpl; [reflexivity|].
  destruct (loose_eq_null (prop_of data a)); reflexivity.
Qed.

Lemma path3 data a b c :
  path data [a; b; c] =
  if present data [a] && present data [a; b]
  then Normal (data_at data [a; b; c]) else Throw TypeError.
Proof.
  unfold present, data_at; simpl. unfold GetV.
  destruct (loose_eq_null data); simpl; [reflexivity|].
  destruct (loose_eq_null (prop_of data a)); simpl; [reflexivity|].
  destruct (loose_eq_null (prop_of (prop_of data a) b)); reflexivity.
Qed.

(** A result is complete exactly when every read of the layout
    succeeds. *)
Lemma data_complete_paths data :
  data_complete data =
  forallb (fun p => is_Normal (path data p)) destructured_paths.
Proof.
  unfold destructured_paths, forallb.
  rewrite !path3, !path2. unfold data_complete, destructurable.
  destruct (present data ["mdx"]); simpl; [|reflexivity].
  destruct (present data ["mdx"; "fields"]); simpl; [|reflexivity].
  destruct (present data ["mdx"; "frontmatter"]); simpl;
    [|destruct (present data ["site"]); reflexivity].
  destruct (present data ["site"]); simpl;
    [|destruct (present data ["mdx"; "parent"]); reflexivity].
  destruct (present data ["site"; "siteMetadata"]); simpl;
    destruct (present data ["mdx"; "parent"]); reflexivity.
Qed.

Lemma path_complete data p :
  data_complete data = true -> In p destructured_paths ->
  path data p = Normal (data_at data p).
Proof.
  intros Hc Hp. unfold data_complete, destructurable in Hc.
  repeat (apply andb_prop in Hc as [Hc ?]).
  unfold destructured_paths in Hp. simpl in Hp.
  repeat (destruct Hp as [<- | Hp];
          [ first [ rewrite path3 | rewrite path2 ];
            repeat match goal with
                   | E : present _ _ = true |- _ => rewrite E; clear E
                   end; reflexivity | ]).
  destruct Hp.
Qed.

Lemma forallb_agree {A : Type} (f g : A -> bool) (l : list A) :
  (forall x, In x l -> f x = g x) -> forallb f l = forallb g l.
Proof.
  induction l as [|x l IH]; simpl; intros Hfg; [reflexivity|].
  rewrite (Hfg x) by auto. rewrite IH by auto. reflexivity.
Qed.

(** The layout reads the query result through [destructured_paths]
    only: two results that answer these reads alike render alike. *)
Lemma ArticleLayout_reads_paths props1 props2 ctx :
  ToBoolean (props_data props1) = ToBoolean (props_data props2) ->
  props1 !! "location" = props2 !! "location" ->
  (forall p, In p destructured_paths ->
             path (props_data props1) p = path (props_data props2) p) ->
  ArticleLayout props1 ctx = ArticleLayout props2 ctx.
Proof.
  intros Hb Hl Hp. rewrite !ArticleLayout_spec, <- Hb, <- Hl.
  destruct (negb (ToBoolean (props_data props1))); [reflexivity|].
  assert (Hc : data_complete (props_data props1)
               = data_complete (props_data props2)).
  { rewrite !data_complete_paths. apply forallb_agree.
    intros p Hin. rewrite (Hp p Hin). reflexivity. }
  rewrite <- Hc.
  destruct (data_complete (props_data props1)) eqn:Hc1; [|reflexivity].
  symmetry in Hc.
  assert (Hat : forall p, In p destructured_paths ->
                data_at (props_data props1) p = data_at (props_data props2) p).
  { intros p Hin. specialize (Hp p Hin).
    rewrite (path_complete _ _ Hc1 Hin), (path_complete _ _ Hc Hin) in Hp.
    congruence. }
  unfold article_tree, edit_path.
  rewrite !Hat by (unfold destructured_paths; simpl; tauto).
  reflexivity.
Qed.

(** The outcomes of a render, as a case analysis: a property of the
    tree built from the query result holds of whatever element the
    layout returns; it returns [null] only for a falsy [data] and
    throws only on a [data] that is not renderable. *)
Lemma ArticleLayout_cases props ctx (P : Element number -> Prop) :
  (forall e, edit_path (props_data props) = Normal e ->
             P (article_tree (props_data props)
                  (default JUndefined (props !! "location"))
                  (navigate ctx) e)) ->
  match ArticleLayout props ctx with
  | Normal (Some el) => P el
  | Normal None => ToBoolean (props_data props) = false
  | Throw _ => renderable (props_data props) = false
  end.
Proof.
  intros HP. rewrite ArticleLayout_spec, renderable_spec.
  destruct (ToBoolean (props_data props)); simpl; [|reflexivity].
  destruct (data_complete (props_data props)); [|reflexivity].
  destruct (edit_path (props_data props)) as [e|]; simpl;
    [apply HP; reflexivity|reflexivity].
Qed.

(** *** The table of contents *)

(** C1 (as amended).  For every [data] other than [null] and
    [undefined], the one [toc] that the layout passes to [TopSection]
    is [data.mdx.tableOfContents] whenever [frontmatter.toc] is truthy
    or is [null] or [undefined], and is the empty array whenever
    [frontmatter.toc] is falsy without being [null] or [undefined].
    When [data.mdx.tableOfContents] is not itself the empty array, the
    passed [toc] is the empty array exactly in the second case.  (The
    layout passes nothing when it returns [null], on a falsy [data], or
    throws, on a [data] that is not renderable.) *)
Theorem ArticleLayout_toc_fallback props ctx :
  loose_eq_null (props_data props) = false ->
  let toc := data_at (props_data props) ["mdx"; "frontmatter"; "toc"] in
  let tableOfContents :=
    data_at (props_data props) ["mdx"; "tableOfContents"] in
  match ArticleLayout props ctx with
  | Normal (Some el) =>
      exists t,
        tocs_passed el = [t] /\
        (ToBoolean toc = true \/ loose_eq_null toc = true ->
         t = tableOfContents) /\
        (ToBoolean toc = false /\ loose_eq_null toc = false ->
         t = JArr []) /\
        (tableOfContents <> JArr [] ->
         (t = JArr [] <->
          ToBoolean toc = false /\ loose_eq_null toc = false))
  | Normal None => ToBoolean (props_data props) = false
  | Throw _ => renderable (props_data props) = false
  end.
Proof.
  intros _ toc tableOfContents.
  apply ArticleLayout_cases with
    (P := fun el => exists t, tocs_passed el = [t] /\ _).
  intros e _.
  exists (toc_prop toc tableOfContents).
  split; [reflexivity|].
  unfold toc_prop.
  destruct (ToBoolean toc) eqn:Et, (loose_eq_null toc) eqn:En; simpl;
    (split; [|split]).
  all: try (intros [? | ?]; try discriminate; reflexivity).
  all: try (intros [? ?]; try discriminate; reflexivity).
  all: intros Hne; (split; [intros Heq | intros [? ?]]);
    try discriminate; try contradiction; auto.
Qed.

(** *** The rendered tree *)

(** C2 (as amended).  For every [data] in which [mdx], [mdx.fields],
    [mdx.frontmatter], [mdx.parent], [site] and [site.siteMetadata] are
    present and whose [site.siteMetadata.docsLocation] and
    [mdx.parent.relativePath] convert to strings, the layout returns a
    fragment of four children, in this order: the [SEO] element, the
    [section] of class [top-section] around the one [TopSection] (which
    carries the table of contents), the [MDXRenderer] around the body,
    and the [PageBottom] carrying the edit path and the page URL. *)
Theorem ArticleLayout_renders props ctx docsLocation_s relativePath_s :
  let data := props_data props in
  let title := data_at data ["mdx"; "frontmatter"; "title"] in
  data_complete data = true ->
  ToString (data_at data ["site"; "siteMetadata"; "docsLocation"])
    = Normal docsLocation_s ->
  ToString (data_at data ["mdx"; "parent"; "relativePath"])
    = Normal relativePath_s ->
  ArticleLayout props ctx =
  Normal (Some (Fragment
    [ SEO (js_or (data_at data ["mdx"; "frontmatter"; "metaTitle"]) title)
          (js_or (data_at data ["mdx"; "frontmatter"; "metaDescription"])
                 title);
      section "top-section"
        [ TopSection (default JUndefined (props !! "location"))
            title
            (data_at data ["mdx"; "fields"; "modSlug"])
            (data_at data ["mdx"; "frontmatter"; "langSwitcher"])
            (data_at data ["mdx"; "frontmatter"; "dbSwitcher"])
            (useNavigate ctx)
            (toc_prop (data_at data ["mdx"; "frontmatter"; "toc"])
                      (data_at data ["mdx"; "tableOfContents"])) ];
      MDXRenderer (data_at data ["mdx"; "body"]);
      PageBottom (docsLocation_s +:+ "/" +:+ relativePath_s)
        (data_at data ["mdx"; "fields"; "slug"]) ])).
Proof.
  intros data title Hc Hd Hr.
  apply (ArticleLayout_complete props ctx _ Hc).
  unfold edit_path. fold data. rewrite Hd, Hr. reflexivity.
Qed.

(** C3.  For every [data] other than [null] and [undefined], the one
    [PageBottom] that the layout builds receives as [editDocsPath] the
    concatenation of [site.siteMetadata.docsLocation], the character
    [/] and [mdx.parent.relativePath] (each converted to a string as a
    template literal does, which leaves strings as they are), and as
    [pageUrl] the value of [mdx.fields.slug].  (The layout builds
    nothing when it returns [null], on a falsy [data], or throws, on a
    [data] that is not renderable.) *)
Theorem ArticleLayout_edit_path props ctx :
  loose_eq_null (props_data props) = false ->
  let data := props_data props in
  let docsLocation := data_at data ["site"; "siteMetadata"; "docsLocation"] in
  let relativePath := data_at data ["mdx"; "parent"; "relativePath"] in
  match ArticleLayout props ctx with
  | Normal (Some el) =>
      exists editDocsPath pageUrl docsLocation_s relativePath_s,
        page_bottoms_passed el = [(editDocsPath, pageUrl)] /\
        ToString docsLocation = Normal docsLocation_s /\
        ToString relativePath = Normal relativePath_s /\
        editDocsPath = docsLocation_s +:+ "/" +:+ relativePath_s /\
        (forall d r, docsLocation = JStr d -> relativePath = JStr r ->
                     editDocsPath = d +:+ "/" +:+ r) /\
        pageUrl = data_at data ["mdx"; "fields"; "slug"]
  | Normal None => ToBoolean data = false
  | Throw _ => renderable data = false
  end.
Proof.
  intros _ data docsLocation relativePath.
  apply ArticleLayout_cases with
    (P := fun el => exists e u ds rs, page_bottoms_passed el = [(e, u)] /\ _).
  intros e He. unfold edit_path in He.
  fold data docsLocation relativePath in He.
  destruct (ToString docsLocation) as [ds|] eqn:Ed;
    cbn [bind] in He; [|discriminate].
  destruct (ToString relativePath) as [rs|] eqn:Er;
    cbn [bind] in He; [|discriminate].
  injection He as <-.
  exists (ds +:+ "/" +:+ rs), (data_at data ["mdx"; "fields"; "slug"]), ds, rs.
  split; [reflexivity|].
  split; [reflexivity|]. split; [reflexivity|]. split; [reflexivity|].
  split; [|reflexivity].
  intros d r Hd Hr. rewrite Hd in Ed. rewrite Hr in Er.
  simpl in Ed, Er. congruence.
Qed.

(** C4.  For every [data] other than [null] and [undefined], the one
    [SEO] element that the layout builds receives as title
    [frontmatter.metaTitle] when that is truthy and [frontmatter.title]
    otherwise, and as description [frontmatter.metaDescription] when
    that is truthy and [frontmatter.title] otherwise.  (The layout
    builds nothing when it returns [null], on a falsy [data], or
    throws, on a [data] that is not renderable.) *)
Theorem ArticleLayout_seo props ctx :
  loose_eq_null (props_data props) = false ->
  let data := props_data props in
  let title := data_at data ["mdx"; "frontmatter"; "title"] in
  let metaTitle := data_at data ["mdx"; "frontmatter"; "metaTitle"] in
  let metaDescription :=
    data_at data ["mdx"; "frontmatter"; "metaDescription"] in
  match ArticleLayout props ctx with
  | Normal (Some el) =>
      exists seo_title seo_description,
        seo_passed el = [(seo_title, seo_description)] /\
        (ToBoolean metaTitle = true -> seo_title = metaTitle) /\
        (ToBoolean metaTitle = false -> seo_title = title) /\
        (ToBoolean metaDescription = true ->
         seo_description = metaDescription) /\
        (ToBoolean metaDescription = false -> seo_description = title)
  | Normal None => ToBoolean data = false
  | Throw _ => renderable data = false
  end.
Proof.
  intros _ data title metaTitle metaDescription.
  apply ArticleLayout_cases with
    (P := fun el => exists t d, seo_passed el = [(t, d)] /\ _).
  intros e _.
  eexists _, _.
  split; [reflexivity|].
  fold data title metaTitle metaDescription. unfold js_or.
  split; [|split; [|split]]; intros ->; reflexivity.
Qed.

(** C9.  For every [data] other than [null] and [undefined], the one
    [MDXRenderer] element that the layout builds receives the value of
    [data.mdx.body] itself as its children.  (The layout builds nothing
    when it returns [null], on a falsy [data], or throws, on a [data]
    that is not renderable.) *)
Theorem ArticleLayout_body_unchanged props ctx :
  loose_eq_null (props_data props) = false ->
  match ArticleLayout props ctx with
  | Normal (Some el) =>
      bodies_passed el = [data_at (props_data props) ["mdx"; "body"]]
  | Normal None => ToBoolean (props_data props) = false
  | Throw _ => renderable (props_data props) = false
  end.
Proof.
  intros _.
  apply ArticleLayout_cases with
    (P := fun el => bodies_passed el = [_]).
  intros e _. reflexivity.
Qed.

(** *** The guard *)

(** C5.  When [data] is falsy, in particular [null] or [undefined] or
    not passed at all, the layout returns [null]: it completes normally
    and builds no element. *)
Theorem ArticleLayout_no_data props ctx :
  ToBoolean (props_data props) = false ->
  ArticleLayout props ctx = Normal None.
Proof.
  intros Hf. rewrite ArticleLayout_spec, Hf. reflexivity.
Qed.

(** C6 (as amended).  The guard covers [data] itself only.  The
    destructuring of lines 17-28 succeeds exactly when [data.mdx],
    [data.mdx.fields], [data.mdx.frontmatter], [data.site] and
    [data.site.siteMetadata] are present; [data.mdx.parent] is bound
    without being taken apart, so its absence does not fail the
    destructuring: a render that passed the guard throws a [TypeError]
    later, where line 47 reads [parent.relativePath].  A truthy [data]
    whose [mdx] is [null], and one whose [site] is [null], fail in the
    destructuring. *)
Theorem ArticleLayout_guard_scope props ctx :
  let data := props_data props in
  ((exists b, destructure data = Normal b) <-> destructurable data = true) /\
  (ToBoolean data = true -> present data ["mdx"; "parent"] = false ->
   ArticleLayout props ctx = Throw TypeError) /\
  (let no_mdx : JsVal number :=
     JObj {[ "mdx" := JNull;
             "site" := JObj {[ "siteMetadata" := JObj empty ]} ]} in
   ToBoolean no_mdx = true /\ destructure no_mdx = Throw TypeError) /\
  (let no_site : JsVal number :=
     JObj {[ "mdx" := JObj {[ "fields" := JObj empty;
                              "frontmatter" := JObj empty;
                              "parent" := JObj empty ]};
             "site" := JNull ]} in
   ToBoolean no_site = true /\ destructure no_site = Throw TypeError).
Proof.
  intros data. split; [|split; [|split]].
  - rewrite destructure_spec.
    destruct (destructurable data); split; eauto; try discriminate.
    intros [b Hb]; discriminate.
  - intros Ht Hp. rewrite ArticleLayout_spec. fold data. rewrite Ht; simpl.
    unfold data_complete. rewrite Hp, andb_false_r. reflexivity.
  - split; reflexivity.
  - split; reflexivity.
Qed.

(** *** Dependence on the inputs *)

(** C7 (as amended).  The render is a function of [props.data],
    [props.location] and the router context read by [useNavigate]: two
    renders whose props agree on [data] and [location], under the same
    router context, return the same tree, whatever the other props
    are. *)
Theorem ArticleLayout_same_inputs props1 props2 ctx :
  props1 !! "data" = props2 !! "data" ->
  props1 !! "location" = props2 !! "location" ->
  ArticleLayout props1 ctx = ArticleLayout props2 ctx.
Proof.
  intros Hd Hl. rewrite !ArticleLayout_spec. unfold props_data.
  rewrite Hd, Hl. reflexivity.
Qed.

(** *** The page query *)

(** The query requests nothing but what the layout reads. *)
Lemma requests_query_inv p :
  requests query p = true -> In p destructured_paths.
Proof.
  intros Hp. unfold requests, query in Hp. simpl in Hp.
  destruct p as [|k1 p]; [discriminate|]. simpl in Hp.
  destruct p as [|k2 p].
  { split_eqb Hp; try discriminate; simpl; tauto. }
  destruct p as [|k3 p].
  { split_eqb Hp; try discriminate; simpl; tauto. }
  destruct p as [|k4 p].
  { split_eqb Hp; try discriminate; simpl; tauto. }
  split_eqb Hp; try discriminate.
Qed.

(** C8.  Every property path that the layout reads from [data] is
    requested by the exported query, so two query results that agree
    on what the query requests render alike; and the query selects the
    [mdx] node by [fields: { id: { eq: $id } }], where [$id] is its
    [String!] variable. *)
Theorem query_drives_ArticleLayout :
  forallb (requests query) destructured_paths = true /\
  (forall props1 props2 ctx,
     ToBoolean (props_data props1) = ToBoolean (props_data props2) ->
     props1 !! "location" = props2 !! "location" ->
     (forall p, requests query p = true ->
                path (props_data props1) p = path (props_data props2) p) ->
     ArticleLayout props1 ctx = ArticleLayout props2 ctx) /\
  variables query = [("id", "String!")] /\
  root_args query "mdx" =
    Some [("fields", GqlObject [("id", GqlObject [("eq", GqlVar "id")])])].
Proof.
  assert (Hreq : forallb (requests query) destructured_paths = true)
    by reflexivity.
  split; [exact Hreq|]. split; [|split; reflexivity].
  intros props1 props2 ctx Hb Hl Hp.
  apply ArticleLayout_reads_paths; [exact Hb|exact Hl|].
  intros p Hin. apply Hp.
  apply (proj1 (forallb_forall _ _) Hreq), Hin.
Qed.

(** *** The query and the layout, leaf by leaf *)

(** X1.  The query requests exactly the leaves that the layout reads:
    it fetches no field that the layout leaves unused, and the layout
    reads no field that the query leaves out. *)
Theorem query_requests_exactly p :
  requests query p = true <-> In p destructured_paths.
Proof.
  split; [apply requests_query_inv|].
  intros Hin.
  assert (Hreq : forallb (requests query) destructured_paths = true)
    by reflexivity.
  apply (proj1 (forallb_forall _ _) Hreq), Hin.
Qed.

(** X2.  No requested leaf is dead.  Take the blank page and put the
    string [x], or else [false], at a requested leaf: the two results
    are complete and agree on every other requested leaf, and the
    layout renders them differently under every router context. *)
Theorem requested_leaf_matters p :
  requests query p = true ->
  let d1 := set_path blank_page p (JStr "x") in
  let d2 := set_path blank_page p (JBool false) in
  data_complete d1 = true /\ data_complete d2 = true /\
  path d1 p = Normal (JStr "x") /\ path d2 p = Normal (JBool false) /\
  (forall q, requests query q = true -> q <> p -> path d1 q = path d2 q) /\
  (forall ctx, ArticleLayout {[ "data" := d1 ]} ctx <>
               ArticleLayout {[ "data" := d2 ]} ctx).
Proof.
  intros Hp d1 d2. subst d1 d2.
  apply requests_query_inv in Hp.
  unfold destructured_paths in Hp. simpl in Hp.
  repeat (destruct Hp as [<- | Hp]; [|]); try (destruct Hp; fail).
  all: split; [vm_compute; reflexivity|].
  all: split; [vm_compute; reflexivity|].
  all: split; [vm_compute; reflexivity|].
  all: split; [vm_compute; reflexivity|].
  all: split.
  all: try (intros q Hq Hne; apply requests_query_inv in Hq;
            unfold destructured_paths in Hq; simpl in Hq;
            repeat (destruct Hq as [<- | Hq];
                    [first [ exfalso; apply Hne; reflexivity
                           | vm_compute; reflexivity ]|]);
            destruct Hq).
  all: intros ctx Heq; vm_compute in Heq; discriminate Heq.
Qed.

(** *** Edge behaviour *)

Lemma data_complete_object data :
  data_complete data = true -> exists m, data = JObj m.
Proof.
  unfold data_complete. intros Hc.
  apply andb_prop in Hc as [Hd _].
  apply destructurable_mdx in Hd as [_ Hm].
  destruct data; simpl in Hm; try discriminate. eauto.
Qed.

(** X3.  The layout returns an element for an object only.  When [data]
    is anything else, the layout returns [null] if it is falsy and throws
    a [TypeError] if it is truthy (a non-empty string, a non-zero number,
    [true], an array): the guard lets it through and [data.mdx] is
    [undefined]. *)
Theorem ArticleLayout_non_object_data props ctx :
  (forall m, props_data props <> JObj m) ->
  ArticleLayout props ctx =
  if ToBoolean (props_data props) then Throw TypeError else Normal None.
Proof.
  intros Hno. rewrite ArticleLayout_spec.
  destruct (ToBoolean (props_data props)); simpl; [|reflexivity].
  destruct (data_complete (props_data props)) eqn:Hc; [|reflexivity].
  apply data_complete_object in Hc as [m Hm]. destruct (Hno m Hm).
Qed.

Lemma ToBoolean_js_or (a b : JsVal number) :
  ToBoolean (js_or a b) = ToBoolean a || ToBoolean b.
Proof.
  unfold js_or. destruct (ToBoolean a) eqn:Ea; simpl; [exact Ea|reflexivity].
Qed.

(** X4.  Whenever the layout renders, the [SEO] element gets a truthy
    title exactly when [frontmatter.metaTitle] or [frontmatter.title] is
    truthy, and a truthy description exactly when
    [frontmatter.metaDescription] or [frontmatter.title] is: a page with
    a title never has empty SEO tags, and a page without one has them
    only through its own meta fields. *)
Theorem ArticleLayout_seo_truthiness props ctx :
  renderable (props_data props) = true ->
  let data := props_data props in
  let title := data_at data ["mdx"; "frontmatter"; "title"] in
  let metaTitle := data_at data ["mdx"; "frontmatter"; "metaTitle"] in
  let metaDescription :=
    data_at data ["mdx"; "frontmatter"; "metaDescription"] in
  exists el seo_title seo_description,
    ArticleLayout props ctx = Normal (Some el) /\
    seo_passed el = [(seo_title, seo_description)] /\
    ToBoolean seo_title = ToBoolean metaTitle || ToBoolean title /\
    ToBoolean seo_description =
      ToBoolean metaDescription || ToBoolean title.
Proof.
  intros Hr data title metaTitle metaDescription.
  apply renderable_edit_path in Hr as [Hc [e He]].
  eexists _, _, _.
  split; [apply (ArticleLayout_complete props ctx e Hc He)|].
  split; [reflexivity|].
  split; apply ToBoolean_js_or.
Qed.

(** X5.  A missing leaf of the edit path does not fail the render: it is
    printed as the text [null] or [undefined].  When the layout renders
    and [docsLocation] is [null] (what the query answers for a site
    without one) or [undefined], the edit path starts with [null/] or
    [undefined/]; when [relativePath] is [undefined] (a parent that is
    not a file, for which the inline fragment selects nothing) or
    [null], it ends in [/undefined] or [/null]. *)
Theorem ArticleLayout_edit_path_missing_leaf props ctx :
  renderable (props_data props) = true ->
  let data := props_data props in
  let docsLocation := data_at data ["site"; "siteMetadata"; "docsLocation"] in
  let relativePath := data_at data ["mdx"; "parent"; "relativePath"] in
  exists el editDocsPath pageUrl docsLocation_s relativePath_s,
    ArticleLayout props ctx = Normal (Some el) /\
    page_bottoms_passed el = [(editDocsPath, pageUrl)] /\
    ToString docsLocation = Normal docsLocation_s /\
    ToString relativePath = Normal relativePath_s /\
    (docsLocation = JNull -> editDocsPath = "null/" +:+ relativePath_s) /\
    (docsLocation = JUndefined ->
     editDocsPath = "undefined/" +:+ relativePath_s) /\
    (relativePath = JUndefined ->
     editDocsPath = docsLocation_s +:+ "/undefined") /\
    (relativePath = JNull -> editDocsPath = docsLocation_s +:+ "/null").
Proof.
  intros Hr data docsLocation relativePath.
  apply renderable_edit_path in Hr as [Hc [e He]].
  pose proof He as He'.
  unfold edit_path in He'. fold data docsLocation relativePath in He'.
  destruct (ToString docsLocation) as [ds|] eqn:Ed;
    cbn [bind] in He'; [|discriminate].
  destruct (ToString relativePath) as [rs|] eqn:Er;
    cbn [bind] in He'; [|discriminate].
  injection He' as <-.
  eexists _, _, _, ds, rs.
  split; [apply (ArticleLayout_complete props ctx _ Hc He)|].
  split; [reflexivity|].
  split; [reflexivity|]. split; [reflexivity|].
  split; [|split; [|split]]; intros Hv.
  - rewrite Hv in Ed. simpl in Ed. injection Ed as <-. reflexivity.
  - rewrite Hv in Ed. simpl in Ed. injection Ed as <-. reflexivity.
  - rewrite Hv in Er. simpl in Er. injection Er as <-. reflexivity.
  - rewrite Hv in Er. simpl in Er. injection Er as <-. reflexivity.
Qed.

(** *** What the routing reaches *)

(** X6.  The location and the router context reach [TopSection] only.
    Two renders of the same [data], at any two locations and under any
    two router contexts and other props, end the same way (both return
    [null], both throw, or both return an element), and when they return
    elements the props of [SEO], the table of contents, the children of
    [MDXRenderer] and the props of [PageBottom] are the same. *)
Theorem ArticleLayout_children_ignore_routing props1 props2 ctx1 ctx2 :
  props1 !! "data" = props2 !! "data" ->
  match ArticleLayout props1 ctx1, ArticleLayout props2 ctx2 with
  | Normal (Some el1), Normal (Some el2) =>
      seo_passed el1 = seo_passed el2 /\
      tocs_passed el1 = tocs_passed el2 /\
      bodies_passed el1 = bodies_passed el2 /\
      page_bottoms_passed el1 = page_bottoms_passed el2
  | Normal None, Normal None => True
  | Throw e1, Throw e2 => e1 = e2
  | _, _ => False
  end.
Proof.
  intros Hd. rewrite !ArticleLayout_spec. unfold props_data. rewrite Hd.
  destruct (ToBoolean (default JUndefined (props2 !! "data"))); simpl;
    [|exact I].
  destruct (data_complete (default JUndefined (props2 !! "data")));
    [|reflexivity].
  destruct (edit_path (default JUndefined (props2 !! "data"))) as [e|e];
    simpl; [|reflexivity].
  repeat split; reflexivity.
Qed.

(** X7.  Whatever element the layout returns has one [TopSection], which
    receives [props.location] ([undefined] when the props have none),
    [frontmatter.title] as title, [fields.modSlug], not [fields.slug], as
    slug, [frontmatter.langSwitcher] and [frontmatter.dbSwitcher] as they
    are, and the [navigate] function of the router context.  (The layout
    returns [null] only on a falsy [data] and throws only on a [data]
    that is not renderable.) *)
Theorem ArticleLayout_top_section_props props ctx :
  let data := props_data props in
  match ArticleLayout props ctx with
  | Normal (Some el) =>
      top_sections_passed el =
      [ (default JUndefined (props !! "location"),
         data_at data ["mdx"; "frontmatter"; "title"],
         data_at data ["mdx"; "fields"; "modSlug"],
         data_at data ["mdx"; "frontmatter"; "langSwitcher"],
         data_at data ["mdx"; "frontmatter"; "dbSwitcher"],
         navigate ctx) ]
  | Normal None => ToBoolean data = false
  | Throw _ => renderable data = false
  end.
Proof.
  intros data.
  apply ArticleLayout_cases with
    (P := fun el => top_sections_passed el = [_]).
  intros e _. reflexivity.
Qed.

End Properties.

(** * The properties on the sample pages *)

Lemma sql_views_renders props ctx :
  props_data props = sql_views_page ->
  ArticleLayout props ctx =
  Normal (Some (article_tree sql_views_page
                  (default JUndefined (props !! "location")) (navigate ctx)
                  "https://example.org/docs/content/guides/sql-views.mdx")).
Proof.
  intros Hd. rewrite <- Hd.
  apply ArticleLayout_complete; rewrite Hd; reflexivity.
Qed.

Lemma plain_page_renders ctx :
  ArticleLayout {[ "data" := plain_page ]} ctx =
  Normal (Some (article_tree plain_page JUndefined (navigate ctx)
                  "docs/log.mdx")).
Proof.
  exact (ArticleLayout_complete {[ "data" := plain_page ]} ctx
           "docs/log.mdx" eq_refl eq_refl).
Qed.

Lemma orphan_page_renders ctx :
  ArticleLayout {[ "data" := orphan_page ]} ctx =
  Normal (Some (article_tree orphan_page JUndefined (navigate ctx)
                  "null/undefined")).
Proof.
  exact (ArticleLayout_complete {[ "data" := orphan_page ]} ctx
           "null/undefined" eq_refl eq_refl).
Qed.

(** Without a [toc] in the front matter the table of contents of the
    query is passed; with [toc: false] the empty array is. *)
Lemma ArticleLayout_toc_fallback_sql_views :
  loose_eq_null (props_data sql_views_props) = false /\
  loose_eq_null (props_data (number := SafeInteger)
                   {[ "data" := plain_page ]}) = false /\
  (exists el,
     ArticleLayout sql_views_props router_a = Normal (Some el) /\
     tocs_passed el = [data_at sql_views_page ["mdx"; "tableOfContents"]]) /\
  (exists el,
     ArticleLayout {[ "data" := plain_page ]} router_a = Normal (Some el) /\
     tocs_passed el = [JArr []]).
Proof.
  split; [reflexivity|]. split; [reflexivity|]. split.
  - pose proof (ArticleLayout_toc_fallback sql_views_props router_a eq_refl)
      as Hw.
    cbv zeta in Hw.
    rewrite (sql_views_renders sql_views_props router_a eq_refl) in Hw.
    destruct Hw as (t & Ht & Hyes & _).
    eexists. split; [apply sql_views_renders; reflexivity|].
    rewrite Ht. f_equal. apply Hyes. right. reflexivity.
  - pose proof (ArticleLayout_toc_fallback
                  {[ "data" := plain_page ]} router_a eq_refl) as Hw.
    cbv zeta in Hw. rewrite plain_page_renders in Hw.
    destruct Hw as (t & Ht & _ & Hno & _).
    eexists. split; [apply plain_page_renders|].
    rewrite Ht. f_equal. apply Hno. split; reflexivity.
Defined.

(** The passed [toc] is the empty array although [frontmatter.toc] is
    [true]: the query returned an empty array as the table of contents. *)
Lemma toc_fallback_not_exact :
  loose_eq_null empty_toc_page = false /\
  exists el t,
    ArticleLayout {[ "data" := empty_toc_page ]} router_a = Normal (Some el) /\
    tocs_passed el = [t] /\
    ~ (t = JArr [] <->
       ToBoolean (data_at empty_toc_page ["mdx"; "frontmatter"; "toc"]) = false
       /\ loose_eq_null
            (data_at empty_toc_page ["mdx"; "frontmatter"; "toc"]) = false).
Proof.
  split; [reflexivity|].
  exists (article_tree empty_toc_page JUndefined (FnId 0) "docs/a.mdx"),
    (JArr []).
  split; [vm_compute; reflexivity|].
  split; [vm_compute; reflexivity|].
  intros [Hf _]. destruct (Hf eq_refl) as [Hd _].
  vm_compute in Hd. discriminate Hd.
Qed.

Lemma ArticleLayout_renders_sql_views :
  data_complete (props_data sql_views_props) = true /\
  ToString (data_at sql_views_page ["site"; "siteMetadata"; "docsLocation"])
    = Normal "https://example.org/docs/content" /\
  ToString (data_at sql_views_page ["mdx"; "parent"; "relativePath"])
    = Normal "guides/sql-views.mdx" /\
  ArticleLayout sql_views_props router_a =
  Normal (Some (Fragment
    [ SEO (JStr "Create SQL views with Prisma and PostgreSQL")
          (JStr "Learn how to create SQL views");
      section "top-section"
        [ TopSection (JObj {[ "pathname" := JStr "/guides/sql-views" ]})
            (JStr "SQL views") (JStr "/guides/sql-views-postgres")
            JNull (JArr [ JStr "postgres" ]) (FnId 0)
            (data_at sql_views_page ["mdx"; "tableOfContents"]) ];
      MDXRenderer (JStr "function MDXContent() {}");
      PageBottom "https://example.org/docs/content/guides/sql-views.mdx"
        (JStr "/guides/sql-views") ])).
Proof.
  split; [reflexivity|]. split; [reflexivity|]. split; [reflexivity|].
  exact (ArticleLayout_renders sql_views_props router_a _ _
           eq_refl eq_refl eq_refl).
Defined.

(** A query that matches no node answers [mdx: null]: [data] is an
    object, and the layout throws instead of rendering.  It throws as
    well on a complete page whose [relativePath] does not convert to a
    string. *)
Lemma ArticleLayout_no_match_throws :
  (loose_eq_null no_match_page = false /\
   ToBoolean no_match_page = true /\
   ArticleLayout {[ "data" := no_match_page ]} router_a = Throw TypeError) /\
  (data_complete unprintable_page = true /\
   ArticleLayout {[ "data" := unprintable_page ]} router_a = Throw TypeError).
Proof.
  split.
  - split; [reflexivity|]. split; [reflexivity|].
    vm_compute. reflexivity.
  - split; [reflexivity|]. vm_compute. reflexivity.
Qed.

Lemma ArticleLayout_edit_path_sql_views :
  loose_eq_null (props_data sql_views_props) = false /\
  exists el,
    ArticleLayout sql_views_props router_a = Normal (Some el) /\
    page_bottoms_passed el =
      [("https://example.org/docs/content/guides/sql-views.mdx",
        JStr "/guides/sql-views")].
Proof.
  split; [reflexivity|].
  pose proof (ArticleLayout_edit_path sql_views_props router_a eq_refl) as Hw.
  cbv zeta in Hw.
  rewrite (sql_views_renders sql_views_props router_a eq_refl) in Hw.
  destruct Hw as (e & u & ds & rs & Hp & _ & _ & _ & He & Hu).
  eexists. split; [apply sql_views_renders; reflexivity|].
  rewrite Hp, (He _ _ eq_refl eq_refl), Hu. reflexivity.
Defined.

(** With a [metaTitle] and a [metaDescription] the SEO tags are these;
    with an empty [metaTitle] and no [metaDescription] both are the
    title. *)
Lemma ArticleLayout_seo_sql_views :
  loose_eq_null (props_data sql_views_props) = false /\
  loose_eq_null (props_data (number := SafeInteger)
                   {[ "data" := plain_page ]}) = false /\
  (exists el,
     ArticleLayout sql_views_props router_a = Normal (Some el) /\
     seo_passed el =
       [(JStr "Create SQL views with Prisma and PostgreSQL",
         JStr "Learn how to create SQL views")]) /\
  (exists el,
     ArticleLayout {[ "data" := plain_page ]} router_a = Normal (Some el) /\
     seo_passed el = [(JStr "Changelog", JStr "Changelog")]).
Proof.
  split; [reflexivity|]. split; [reflexivity|]. split.
  - pose proof (ArticleLayout_seo sql_views_props router_a eq_refl) as Hw.
    cbv zeta in Hw.
    rewrite (sql_views_renders sql_views_props router_a eq_refl) in Hw.
    destruct Hw as (t & d & Hp & Ht & _ & Hd & _).
    eexists. split; [apply sql_views_renders; reflexivity|].
    rewrite Hp, (Ht eq_refl), (Hd eq_refl). reflexivity.
  - pose proof (ArticleLayout_seo {[ "data" := plain_page ]} router_a eq_refl)
      as Hw.
    cbv zeta in Hw. rewrite plain_page_renders in Hw.
    destruct Hw as (t & d & Hp & _ & Ht & _ & Hd).
    eexists. split; [apply plain_page_renders|].
    rewrite Hp, (Ht eq_refl), (Hd eq_refl). reflexivity.
Defined.

Lemma ArticleLayout_body_unchanged_sql_views :
  loose_eq_null (props_data sql_views_props) = false /\
  exists el,
    ArticleLayout sql_views_props router_a = Normal (Some el) /\
    bodies_passed el = [JStr "function MDXContent() {}"].
Proof.
  split; [reflexivity|].
  pose proof (ArticleLayout_body_unchanged sql_views_props router_a eq_refl)
    as Hw.
  rewrite (sql_views_renders sql_views_props router_a eq_refl) in Hw.
  eexists. split; [apply sql_views_renders; reflexivity|].
  exact Hw.
Defined.

Lemma ArticleLayout_no_data_null :
  ToBoolean (props_data (number := SafeInteger) {[ "data" := JNull ]})
    = false /\
  ArticleLayout (number := SafeInteger) {[ "data" := JNull ]} router_a
    = Normal None.
Proof.
  split; [reflexivity|].
  exact (ArticleLayout_no_data {[ "data" := JNull ]} router_a eq_refl).
Defined.

(** The destructuring goes through on a page without a parent, which is
    not one of the objects it takes apart. *)
Lemma destructure_null_parent :
  ToBoolean null_parent_page = true /\
  (exists b, destructure null_parent_page = Normal b) /\
  present null_parent_page ["mdx"; "parent"] = false.
Proof.
  split; [reflexivity|]. split; [|reflexivity].
  eexists. vm_compute. reflexivity.
Qed.

Lemma ArticleLayout_guard_scope_null_parent :
  ToBoolean (props_data (number := SafeInteger)
               {[ "data" := null_parent_page ]}) = true /\
  present null_parent_page ["mdx"; "parent"] = false /\
  (exists b, destructure null_parent_page = Normal b) /\
  ArticleLayout {[ "data" := null_parent_page ]} router_a = Throw TypeError.
Proof.
  split; [reflexivity|]. split; [reflexivity|].
  pose proof (ArticleLayout_guard_scope
                {[ "data" := null_parent_page ]} router_a) as Hw.
  cbv zeta in Hw. destruct Hw as (Hd & Hr & _ & _).
  split.
  - apply Hd. reflexivity.
  - apply Hr; reflexivity.
Defined.

Lemma ArticleLayout_same_inputs_sql_views :
  sql_views_props !! "data" = sql_views_props_routed !! "data" /\
  sql_views_props !! "location" = sql_views_props_routed !! "location" /\
  ArticleLayout sql_views_props router_a =
  ArticleLayout sql_views_props_routed router_a.
Proof.
  split; [reflexivity|]. split; [reflexivity|].
  exact (ArticleLayout_same_inputs sql_views_props sql_views_props_routed
           router_a eq_refl eq_refl).
Defined.

(** Equal [data] and [location], two router contexts, two trees. *)
Lemma ArticleLayout_reads_router_context :
  ArticleLayout sql_views_props router_a <>
  ArticleLayout sql_views_props router_b.
Proof.
  rewrite (sql_views_renders sql_views_props router_a eq_refl),
    (sql_views_renders sql_views_props router_b eq_refl).
  unfold article_tree. intros Heq. inversion Heq.
Qed.

Lemma query_drives_ArticleLayout_sql_views :
  sql_views_page <> sql_views_page_extra /\
  (forall p, requests query p = true ->
             path sql_views_page p = path sql_views_page_extra p) /\
  ArticleLayout sql_views_props router_a =
  ArticleLayout sql_views_props_extra router_a.
Proof.
  assert (Hp : forall p, requests query p = true ->
               path sql_views_page p = path sql_views_page_extra p).
  { intros p Hin. apply requests_query_inv in Hin.
    unfold destructured_paths in Hin. simpl in Hin.
    repeat (destruct Hin as [<- | Hin]; [vm_compute; reflexivity|]).
    destruct Hin. }
  split; [|split; [exact Hp|]].
  - intros Heq. vm_compute in Heq. discriminate Heq.
  - destruct (query_drives_ArticleLayout (number := SafeInteger))
      as (_ & Hq & _).
    apply Hq; [reflexivity|reflexivity|exact Hp].
Defined.

Lemma requested_leaf_matters_body :
  requests query ["mdx"; "body"] = true /\
  ArticleLayout (number := SafeInteger)
    {[ "data" := set_path blank_page ["mdx"; "body"] (JStr "x") ]} router_a <>
  ArticleLayout
    {[ "data" := set_path blank_page ["mdx"; "body"] (JBool false) ]} router_a.
Proof.
  split; [reflexivity|].
  pose proof (requested_leaf_matters (number := SafeInteger)
                ["mdx"; "body"] eq_refl) as Hw.
  cbv zeta in Hw. destruct Hw as (_ & _ & _ & _ & _ & Hne).
  exact (Hne router_a).
Defined.

Lemma ArticleLayout_non_object_data_true :
  (forall m, props_data (number := SafeInteger)
               {[ "data" := JBool true ]} <> JObj m) /\
  ArticleLayout (number := SafeInteger) {[ "data" := JBool true ]} router_a =
  Throw TypeError.
Proof.
  assert (Hno : forall m, props_data (number := SafeInteger)
                            {[ "data" := JBool true ]} <> JObj m).
  { intros m Hm. vm_compute in Hm. discriminate Hm. }
  split; [exact Hno|].
  exact (ArticleLayout_non_object_data {[ "data" := JBool true ]} router_a Hno).
Defined.

Lemma ArticleLayout_seo_truthiness_orphan :
  renderable (props_data (number := SafeInteger)
                {[ "data" := orphan_page ]}) = true /\
  exists el t d,
    ArticleLayout {[ "data" := orphan_page ]} router_a = Normal (Some el) /\
    seo_passed el = [(t, d)] /\
    ToBoolean t = true /\ ToBoolean d = true.
Proof.
  split; [reflexivity|].
  pose proof (ArticleLayout_seo_truthiness
                {[ "data" := orphan_page ]} router_a eq_refl) as Hw.
  cbv zeta in Hw. destruct Hw as (el & t & d & Hr & Hs & Ht & Hd).
  exists el, t, d. repeat split; assumption.
Defined.

Lemma ArticleLayout_edit_path_orphan :
  renderable (props_data (number := SafeInteger)
                {[ "data" := orphan_page ]}) = true /\
  exists el editDocsPath pageUrl,
    ArticleLayout {[ "data" := orphan_page ]} router_a = Normal (Some el) /\
    page_bottoms_passed el = [(editDocsPath, pageUrl)] /\
    editDocsPath = "null/undefined".
Proof.
  split; [reflexivity|].
  pose proof (ArticleLayout_edit_path_missing_leaf
                {[ "data" := orphan_page ]} router_a eq_refl) as Hw.
  cbv zeta in Hw.
  destruct Hw as (el & e & u & ds & rs & Hr & Hp & _ & Hrs & He & _).
  exists el, e, u. split; [exact Hr|]. split; [exact Hp|].
  rewrite (He eq_refl). injection Hrs as <-. reflexivity.
Defined.

Lemma ArticleLayout_children_ignore_routing_sql_views :
  sql_views_props !! "data" = sql_views_props_moved !! "data" /\
  sql_views_props !! "location" <> sql_views_props_moved !! "location" /\
  exists el1 el2,
    ArticleLayout sql_views_props router_a = Normal (Some el1) /\
    ArticleLayout sql_views_props_moved router_b = Normal (Some el2) /\
    el1 <> el2 /\
    seo_passed el1 = seo_passed el2 /\
    page_bottoms_passed el1 = page_bottoms_passed el2.
Proof.
  split; [reflexivity|].
  split; [intros Heq; vm_compute in Heq; discriminate Heq|].
  pose proof (ArticleLayout_children_ignore_routing
                sql_views_props sql_views_props_moved router_a router_b
                eq_refl) as Hw.
  rewrite (sql_views_renders sql_views_props router_a eq_refl),
    (sql_views_renders sql_views_props_moved router_b eq_refl) in Hw.
  destruct Hw as (Hs & _ & _ & Hp).
  eexists _, _.
  split; [apply sql_views_renders; reflexivity|].
  split; [apply sql_views_renders; reflexivity|].
  split; [|split; [exact Hs|exact Hp]].
  intros Heq. vm_compute in Heq. discriminate Heq.
Defined.
